(** * Linear-actuator servo controller: a shallow embedding of
      [src/models/linear_servo.py] and the properties of its operations.

    The controller drives a continuous-rotation motor open loop: a requested
    angle is clamped, turned into a run duration, and the motor is run at
    full power for that long.  The only mutable datum is the position
    estimate [position].

    Conventions of the embedding.
    - Fields annotated [int] are [Z]; fields annotated [float] are IEEE-754
      binary64 numbers (the kernel's primitive [float], which is what a
      Python float is).
    - A coroutine is a computation in the monad [M]: it reads and writes the
      controller object, appends every awaited external call (motor driver,
      [asyncio.sleep]) to a trace, and may raise.  Whether an awaited call
      returns or raises is decided by the environment [env], so every
      theorem quantified over [env] covers motor faults and cancellations.
    - Coroutines are run one at a time; interleavings of the background
      calibration task with other operations are outside this model. *)

From Stdlib Require Import ZArith Lia List.
From Stdlib Require Import Floats.
From stdpp Require Import gmap strings.

Set Warnings "-inexact-float".
Local Open Scope Z_scope.

(** * Part I: the embedding *)

(** ** Exceptions and results *)

Inductive exn : Type :=
| Exception (msg : string)     (* [raise Exception("...")] *)
| KeyError (key : string)      (* [dependencies[...]] on a missing key *)
| AttributeError (name : string) (* reading an annotated, never assigned field *)
| ZeroDivisionError            (* float division by zero *)
| OverflowError                (* int too large to convert to float *)
| NotImplementedError
| CancelledError               (* the awaiting task was cancelled *)
| MotorFault.                  (* any error raised by the motor driver *)

Inductive result (A : Type) : Type :=
| Ok (a : A)
| Err (e : exn).
Arguments Ok {A} a.
Arguments Err {A} e.

Definition result_bind {A B} (r : result A) (k : A -> result B) : result B :=
  match r with
  | Ok a => k a
  | Err e => Err e
  end.

(** ** Python arithmetic on [int] and [float] operands *)

(** [float(z)] for a Python int: correctly rounded, [OverflowError] when
    the magnitude exceeds the largest finite double. *)
Definition float_of_int (z : Z) : result float :=
  match binary_normalize prec emax z 0 false with
  | S754_infinity _ => Err OverflowError
  | sf => Ok (SF2Prim sf)
  end.

(** [a / b] on floats. *)
Definition float_truediv (a b : float) : result float :=
  if PrimFloat.eqb b 0%float then Err ZeroDivisionError else Ok (a / b)%float.

(** [a / n] with a float numerator and an int denominator: the int is
    converted first. *)
Definition float_truediv_int (a : float) (n : Z) : result float :=
  result_bind (float_of_int n) (float_truediv a).

(** [n * b] with an int and a float. *)
Definition int_mul_float (n : Z) (b : float) : result float :=
  result_bind (float_of_int n) (fun a => Ok (a * b)%float).

(** ** The controller object *)

(** A handle on a motor driver resolved from the dependencies. *)
Record Motor : Type := MotorHandle { motor_id : N }.

(** The fields of [LinearServo].  [motor], [mm_per_second] and
    [length_inches] are only annotated in the class body: they have no
    value until [reconfigure] assigns them. *)
Record LinearServo : Type := mkServo {
  motor : option Motor;
  position : Z;
  start_position : Z;
  max_position_degrees : Z;
  min_position_degrees : Z;
  total_degrees : Z;
  mm_per_second : option float;
  length_inches : option float
}.

(** The class-level defaults, i.e. an instance before [reconfigure]. *)
Definition class_defaults : LinearServo :=
  {| motor := None;
     position := 0;
     start_position := 90;
     max_position_degrees := 180;
     min_position_degrees := 0;
     total_degrees := 180;
     mm_per_second := None;
     length_inches := None |}.

Definition set_position (p : Z) (s : LinearServo) : LinearServo :=
  {| motor := motor s;
     position := p;
     start_position := start_position s;
     max_position_degrees := max_position_degrees s;
     min_position_degrees := min_position_degrees s;
     total_degrees := total_degrees s;
     mm_per_second := mm_per_second s;
     length_inches := length_inches s |}.

(** ** The outside world *)

(** Awaited calls that leave the controller. *)
Inductive event : Type :=
| SetPower (m : Motor) (power : float)   (* [await motor.set_power(power)] *)
| Sleep (delay : float)                  (* [await asyncio.sleep(delay)] *)
| MotorStop (m : Motor)                  (* [await motor.stop()] *)
| IsMoving (m : Motor).                  (* [await motor.is_moving()] *)

(** Messages handed to the logger. *)
Inductive log_msg : Type :=
| CalibrationStarting
| MovingToMinimum (deg : Z)
| MovingToMaximum (deg : Z)
| MovingToTarget (deg : Z)
| CalibrationCompleted
| NotImplementedLogged (what : string).

(** Coroutines handed to the event loop by [asyncio.ensure_future]. *)
Inductive task : Type :=
| Initialize.

(** The environment answers the awaited calls: the [n]-th call of a run
    (counted over the whole trace) raises [e] when [fault n = Some e] and
    returns otherwise; [moving n] is the driver's answer when that call is
    [is_moving]. *)
Record env : Type := mkEnv {
  fault : nat -> option exn;
  moving : nat -> bool
}.

Record world : Type := mkWorld {
  self : LinearServo;
  calls : list event;       (* oldest first *)
  logged : list log_msg;    (* oldest first *)
  tasks : list task         (* scheduled, not yet run *)
}.

Definition with_self (s : LinearServo) (w : world) : world :=
  {| self := s; calls := calls w; logged := logged w; tasks := tasks w |}.

Definition with_call (e : event) (w : world) : world :=
  {| self := self w; calls := calls w ++ [e]; logged := logged w; tasks := tasks w |}.

Definition with_log (l : log_msg) (w : world) : world :=
  {| self := self w; calls := calls w; logged := logged w ++ [l]; tasks := tasks w |}.

Definition with_task (t : task) (w : world) : world :=
  {| self := self w; calls := calls w; logged := logged w; tasks := tasks w ++ [t] |}.

(** ** The coroutine monad *)

Definition M (A : Type) : Type := env -> world -> result A * world.

#[global] Instance M_ret : MRet M := fun A a _ w => (Ok a, w).

#[global] Instance M_bind : MBind M := fun A B k c E w =>
  match c E w with
  | (Ok a, w') => k a E w'
  | (Err e, w') => (Err e, w')
  end.

Definition raise {A} (e : exn) : M A := fun _ w => (Err e, w).

Definition lift {A} (r : result A) : M A := fun _ w => (r, w).

Definition get_self : M LinearServo := fun _ w => (Ok (self w), w).

Definition put_self (s : LinearServo) : M unit := fun _ w => (Ok tt, with_self s w).

(** Reading a field that may not have been assigned yet. *)
Definition getattr {A} (name : string) (f : LinearServo -> option A) : M A :=
  fun _ w =>
    match f (self w) with
    | Some a => (Ok a, w)
    | None => (Err (AttributeError name), w)
    end.

(** An awaited external call: it is recorded, then it returns or raises as
    the environment says. *)
Definition await (e : event) : M unit := fun E w =>
  match fault E (length (calls w)) with
  | Some x => (Err x, with_call e w)
  | None => (Ok tt, with_call e w)
  end.

(** An awaited [is_moving]: as [await], with the driver's answer. *)
Definition await_bool (e : event) : M bool := fun E w =>
  match fault E (length (calls w)) with
  | Some x => (Err x, with_call e w)
  | None => (Ok (moving E (length (calls w))), with_call e w)
  end.

Definition log (l : log_msg) : M unit := fun _ w => (Ok tt, with_log l w).

Definition ensure_future (t : task) : M unit := fun _ w => (Ok tt, with_task t w).

(** ** [LinearServo.move] *)

(** The values computed between the no-op test and the first motor call
    (lines 143 to 151 of the source), in the order the source computes
    them; each read of an unassigned field and each arithmetic error
    aborts the computation. *)
Record plan : Type := mkPlan {
  inches_per_degree : float;
  inches_to_move : float;
  mm_to_move : float;
  time_needed : float;
  power : float
}.

Definition attr {A} (name : string) (v : option A) : result A :=
  match v with
  | Some a => Ok a
  | None => Err (AttributeError name)
  end.

Definition direction (degrees_to_move : Z) : float :=
  if 0 <? degrees_to_move then 1%float else (-1)%float.

Definition plan_move (s : LinearServo) (degrees_to_move : Z) : result plan :=
  result_bind (attr "length_inches" (length_inches s)) (fun length_inches_ =>
  result_bind (float_truediv_int length_inches_ (total_degrees s)) (fun inches_per_degree_ =>
  result_bind (int_mul_float (Z.abs degrees_to_move) inches_per_degree_) (fun inches_to_move_ =>
  let mm_to_move_ := (inches_to_move_ * 25.4)%float in
  result_bind (attr "mm_per_second" (mm_per_second s)) (fun mm_per_second_ =>
  result_bind (float_truediv mm_to_move_ mm_per_second_) (fun time_needed_ =>
  Ok {| inches_per_degree := inches_per_degree_;
        inches_to_move := inches_to_move_;
        mm_to_move := mm_to_move_;
        time_needed := time_needed_;
        power := direction degrees_to_move |}))))).

(** [max(self.min_position_degrees, min(angle, self.max_position_degrees))] *)
Definition clamp_target (s : LinearServo) (angle : Z) : Z :=
  Z.max (min_position_degrees s) (Z.min angle (max_position_degrees s)).

Definition move (angle : Z) : M unit :=
  s ← get_self;
  let target_position := clamp_target s angle in
  let degrees_to_move := target_position - position s in
  if degrees_to_move =? 0 then mret tt
  else
    p ← lift (plan_move s degrees_to_move);
    m ← getattr "motor" motor;
    await (SetPower m (power p));;
    await (Sleep (time_needed p));;
    m' ← getattr "motor" motor;
    await (MotorStop m');;
    s' ← get_self;
    put_self (set_position target_position s').

(** ** [LinearServo.initialize]: the calibration sequence *)

Definition initialize : M unit :=
  log CalibrationStarting;;
  s ← get_self;
  let target_position := position s in
  log (MovingToMinimum (min_position_degrees s));;
  move (min_position_degrees s);;
  s1 ← get_self;
  log (MovingToMaximum (max_position_degrees s1));;
  move (max_position_degrees s1);;
  log (MovingToTarget target_position);;
  move target_position;;
  log CalibrationCompleted.

Definition run_task (t : task) : M unit :=
  match t with
  | Initialize => initialize
  end.

(** ** Configuration *)

(** The attribute dictionary as the code reads it: one optional entry per
    key it looks up, at the type the code casts it to.  [None] is what
    [attributes.get(key)] returns for a missing key. *)
Record Attributes : Type := mkAttributes {
  attr_motor : option string;
  attr_length_inches : option float;
  attr_mm_per_second : option float;
  attr_max_position_degrees : option Z;
  attr_min_position_degrees : option Z;
  attr_total_degrees : option Z;
  attr_start_position : option Z
}.

(** [validate_config]: the required and the optional dependencies. *)
Definition validate_config (attributes : Attributes) : result (list string * list string) :=
  match attr_motor attributes with
  | None => Err (Exception "motor is required")
  | Some motor_ =>
    let required := [motor_] in
    match attr_length_inches attributes with
    | None => Err (Exception "length_inches is required")
    | Some _ =>
      match attr_mm_per_second attributes with
      | None => Err (Exception "mm_per_second is required")
      | Some _ => Ok (required, [])
      end
    end
  end.

(** [str(motor_name)]: [str(None)] is the text [None]. *)
Definition str (v : option string) : string := default "None" v.

(** [Motor.get_resource_name(name)], as the key of the dependency map. *)
Definition get_resource_name (name : string) : string :=
  "rdk:component:motor/" +:+ name.

(** [reconfigure]: the lookup of the motor raises [KeyError] before any
    field is assigned.  The defaults [0] of [length_inches] and
    [mm_per_second] are Python ints in the source; they are only ever used
    as operands of float arithmetic, where they act as [0.0].  The closing
    call of the base class's [reconfigure] belongs to the host framework
    and touches none of the fields below. *)
Definition reconfigure (attributes : Attributes) (dependencies : gmap string Motor) : M unit :=
  let motor_name := attr_motor attributes in
  match dependencies !! get_resource_name (str motor_name) with
  | None => raise (KeyError (get_resource_name (str motor_name)))
  | Some motor_ =>
    s ← get_self;
    put_self
      {| motor := Some motor_;
         length_inches := Some (default 0%float (attr_length_inches attributes));
         mm_per_second := Some (default 0%float (attr_mm_per_second attributes));
         max_position_degrees :=
           default (max_position_degrees s) (attr_max_position_degrees attributes);
         min_position_degrees :=
           default (min_position_degrees s) (attr_min_position_degrees attributes);
         total_degrees := default (total_degrees s) (attr_total_degrees attributes);
         position := default (start_position s) (attr_start_position attributes);
         start_position := start_position s |};;
    ensure_future Initialize
  end.

(** [new]: the inherited constructor makes a fresh instance and calls
    [reconfigure] on it. *)
Definition new (attributes : Attributes) (dependencies : gmap string Motor) : M unit :=
  put_self class_defaults;;
  reconfigure attributes dependencies.

(** The intake of a configuration by the host framework, which is not part
    of the repository: it runs the validation step first and, when that
    raises, nothing else. *)
Definition configure (attributes : Attributes) (dependencies : gmap string Motor) : M unit :=
  lift (validate_config attributes);;
  reconfigure attributes dependencies.

(** ** The remaining operations *)

Definition get_position : M Z :=
  s ← get_self;
  mret (position s).

Definition stop : M unit :=
  m ← getattr "motor" motor;
  await (MotorStop m).

Definition is_moving : M bool :=
  m ← getattr "motor" motor;
  await_bool (IsMoving m).

Definition do_command : M unit :=
  log (NotImplementedLogged "do_command");;
  raise NotImplementedError.

Definition get_geometries : M unit :=
  log (NotImplementedLogged "get_geometries");;
  raise NotImplementedError.

(** ** Notions used in the statements *)

Definition with_calls (l : list event) (w : world) : world :=
  {| self := self w; calls := calls w ++ l; logged := logged w; tasks := tasks w |}.

(** Projections of updated worlds and objects. *)
Ltac world_simpl :=
  cbn [self calls logged tasks with_self with_call with_calls with_log with_task
       motor position start_position max_position_degrees min_position_degrees
       total_degrees mm_per_second length_inches set_position] in *.

(** What one call of [move] does, case by case. *)
Definition move_outcome (angle : Z) (E : env) (w : world) : result unit * world :=
  let s := self w in
  let target_position := clamp_target s angle in
  let degrees_to_move := target_position - position s in
  let n := length (calls w) in
  if degrees_to_move =? 0 then (Ok tt, w)
  else
    match plan_move s degrees_to_move with
    | Err e => (Err e, w)
    | Ok p =>
      match motor s with
      | None => (Err (AttributeError "motor"), w)
      | Some m =>
        match fault E n with
        | Some x => (Err x, with_calls [SetPower m (power p)] w)
        | None =>
          match fault E (S n) with
          | Some x =>
            (Err x, with_calls [SetPower m (power p); Sleep (time_needed p)] w)
          | None =>
            match fault E (S (S n)) with
            | Some x =>
              (Err x, with_calls [SetPower m (power p); Sleep (time_needed p); MotorStop m] w)
            | None =>
              (Ok tt,
               with_self (set_position target_position s)
                 (with_calls [SetPower m (power p); Sleep (time_needed p); MotorStop m] w))
            end
          end
        end
      end
    end.

(** The calls a run of [move] made, given the trace before and after. *)
Definition new_calls (w w' : world) : list event :=
  drop (length (calls w)) (calls w').

Definition is_set_power (e : event) : bool :=
  match e with
  | SetPower _ _ => true
  | _ => false
  end.

Definition is_motor_stop (e : event) : bool :=
  match e with
  | MotorStop _ => true
  | _ => false
  end.

Definition run_duration (s : LinearServo) (degrees_to_move : Z) : result float :=
  result_bind (plan_move s degrees_to_move) (fun p => Ok (time_needed p)).

(** The object [reconfigure] builds from the attributes, the resolved
    motor and the object as it was. *)
Definition configured (attributes : Attributes) (m : Motor) (s : LinearServo) : LinearServo :=
  {| motor := Some m;
     length_inches := Some (default 0%float (attr_length_inches attributes));
     mm_per_second := Some (default 0%float (attr_mm_per_second attributes));
     max_position_degrees :=
       default (max_position_degrees s) (attr_max_position_degrees attributes);
     min_position_degrees :=
       default (min_position_degrees s) (attr_min_position_degrees attributes);
     total_degrees := default (total_degrees s) (attr_total_degrees attributes);
     position := default (start_position s) (attr_start_position attributes);
     start_position := start_position s |}.

(** The calls a client can make besides [move]. *)
Inductive query : Type :=
| GetPosition
| Stop
| IsMovingQuery.

(** The world after one such call, whatever it returned or raised. *)
Definition after_query (E : env) (w : world) (q : query) : world :=
  match q with
  | GetPosition => snd (get_position E w)
  | Stop => snd (stop E w)
  | IsMovingQuery => snd (is_moving E w)
  end.

Definition after_queries (E : env) (qs : list query) (w : world) : world :=
  fold_left (after_query E) qs w.

(** Clamping as the specification words it: a target below the range
    becomes the lower bound, one above it the upper bound. *)
Definition clamp (target lo hi : Z) : Z :=
  if target <? lo then lo else if hi <? target then hi else target.

(** The estimate lies within the configured range. *)
Definition in_range (s : LinearServo) : Prop :=
  min_position_degrees s <= position s <= max_position_degrees s.

(** [s'] is [s] up to the estimate: every other field is the same. *)
Definition same_configuration (s s' : LinearServo) : Prop :=
  s' = set_position (position s') s.

(** A client that awaits [move] for each target in turn and stops at the
    first one that raises. *)
Fixpoint moves (targets : list Z) : M unit :=
  match targets with
  | [] => mret tt
  | angle :: rest => move angle;; moves rest
  end.

(** Traces made of whole runs only: [set_power], [sleep] and [stop], the
    two motor calls on the same motor. *)
Fixpoint complete_runs (l : list event) : bool :=
  match l with
  | [] => true
  | SetPower m _ :: Sleep _ :: MotorStop m' :: rest =>
    (motor_id m =? motor_id m')%N && complete_runs rest
  | _ => false
  end.

(** The calls of a completed [move] to [angle] from the state [s]: none
    when the clamped target is the estimate, one whole run otherwise. *)
Definition leg_calls (s : LinearServo) (angle : Z) : list event :=
  if clamp_target s angle - position s =? 0 then []
  else
    match plan_move s (clamp_target s angle - position s), motor s with
    | Ok p, Some m => [SetPower m (power p); Sleep (time_needed p); MotorStop m]
    | _, _ => []
    end.

(** Any call of the four operations a client has. *)
Inductive request : Type :=
| Move (angle : Z)
| Ask (q : query).

(** The world after one request, whatever it returned or raised. *)
Definition after_request (E : env) (w : world) (r : request) : world :=
  match r with
  | Move angle => snd (move angle E w)
  | Ask q => after_query E w q
  end.

Definition after_requests (E : env) (rs : list request) (w : world) : world :=
  fold_left (after_request E) rs w.

(** The log of a calibration that ran to its end from the state [s]. *)
Definition calibration_log (s : LinearServo) : list log_msg :=
  [CalibrationStarting;
   MovingToMinimum (min_position_degrees s);
   MovingToMaximum (max_position_degrees s);
   MovingToTarget (position s);
   CalibrationCompleted].

(** ** Sample data

    An 18 inch actuator moving 25.4 mm per second over 180 degrees, with
    its motor resolved, at rest at 0 degrees. *)

Definition sample_motor : Motor := MotorHandle 1.

Definition sample_servo : LinearServo :=
  {| motor := Some sample_motor;
     position := 0;
     start_position := 90;
     max_position_degrees := 180;
     min_position_degrees := 0;
     total_degrees := 180;
     mm_per_second := Some 25.4%float;
     length_inches := Some 18%float |}.

Definition sample_world : world :=
  {| self := sample_servo; calls := []; logged := []; tasks := [] |}.

(** A configuration for the sample actuator that asks for the scenario of
    the claim, with the motor it names among the dependencies. *)
Definition sample_attributes : Attributes :=
  {| attr_motor := Some "m1";
     attr_length_inches := Some 18%float;
     attr_mm_per_second := Some 25.4%float;
     attr_max_position_degrees := Some 180;
     attr_min_position_degrees := Some 0;
     attr_total_degrees := None;
     attr_start_position := Some 45 |}.

Definition sample_dependencies : gmap string Motor :=
  {[ get_resource_name "m1" := sample_motor ]}.

(** A freshly constructed instance, before any call. *)
Definition fresh_world : world :=
  {| self := class_defaults; calls := []; logged := []; tasks := [] |}.

(** A configuration with a narrower range of its own, started at 45. *)
Definition narrow_attributes : Attributes :=
  {| attr_motor := Some "m1";
     attr_length_inches := Some 18%float;
     attr_mm_per_second := Some 25.4%float;
     attr_max_position_degrees := Some 120;
     attr_min_position_degrees := Some 30;
     attr_total_degrees := Some 90;
     attr_start_position := Some 45 |}.

(** The sample configuration with [total_degrees = 0]. *)
Definition zero_span_attributes : Attributes :=
  {| attr_motor := Some "m1";
     attr_length_inches := Some 18%float;
     attr_mm_per_second := Some 25.4%float;
     attr_max_position_degrees := None;
     attr_min_position_degrees := None;
     attr_total_degrees := Some 0;
     attr_start_position := None |}.

(** The sample configuration asked to start at 200 degrees, above the
    default range. *)
Definition overshoot_attributes : Attributes :=
  {| attr_motor := Some "m1";
     attr_length_inches := Some 18%float;
     attr_mm_per_second := Some 25.4%float;
     attr_max_position_degrees := None;
     attr_min_position_degrees := None;
     attr_total_degrees := None;
     attr_start_position := Some 200 |}.

(** The sample configuration without its [mm_per_second] entry. *)
Definition no_speed_attributes : Attributes :=
  {| attr_motor := Some "m1";
     attr_length_inches := Some 18%float;
     attr_mm_per_second := None;
     attr_max_position_degrees := None;
     attr_min_position_degrees := None;
     attr_total_degrees := None;
     attr_start_position := None |}.

(** The environment in which no awaited call ever raises. *)
Definition quiet : env := {| fault := fun _ => None; moving := fun _ => false |}.

(** The environment that cancels the task while it sleeps: the second
    awaited call raises [CancelledError]. *)
Definition cancelled_in_sleep : env :=
  {| fault := fun n => if (n =? 1)%nat then Some CancelledError else None;
     moving := fun _ => true |}.

(** * Part II: properties *)

(** ** Updated worlds *)

Lemma new_calls_with_calls l w : new_calls w (with_calls l w) = l.
Proof. unfold new_calls. simpl. by rewrite drop_app_length. Qed.

Lemma new_calls_with_self s l w : new_calls w (with_self s (with_calls l w)) = l.
Proof. unfold new_calls. simpl. by rewrite drop_app_length. Qed.

Lemma new_calls_same w : new_calls w w = [].
Proof. unfold new_calls. by rewrite drop_all. Qed.

Create Rewrite HintDb trace.
#[local] Hint Rewrite new_calls_with_calls new_calls_with_self new_calls_same : trace.

Lemma set_position_same s : set_position (position s) s = s.
Proof. by destruct s. Qed.

Lemma plan_move_set_position p s d : plan_move (set_position p s) d = plan_move s d.
Proof. reflexivity. Qed.

(** ** One call of [move], case by case *)

Lemma move_unfold angle E w : move angle E w = move_outcome angle E w.
Proof.
  unfold move, move_outcome, mbind, M_bind, get_self, lift, getattr, await, put_self,
    mret, M_ret, with_call, with_calls, with_self.
  cbn.
  destruct (_ =? 0); [done|].
  destruct (plan_move _ _) as [p|e]; [|done].
  destruct (motor (self w)) as [m|] eqn:Hm; [|done].
  destruct (fault E (length (calls w))); [done|].
  cbn. rewrite length_app. cbn. rewrite Nat.add_1_r.
  destruct (fault E (S (length (calls w)))).
  { cbn. by rewrite <- app_assoc. }
  cbn. rewrite Hm. cbn. rewrite !length_app. cbn. rewrite !Nat.add_1_r.
  destruct (fault E (S (S (length (calls w))))).
  all: cbn; by rewrite <- !app_assoc.
Qed.

(** [move] in the no-op case. *)
Lemma move_outcome_noop angle E w :
  clamp_target (self w) angle = position (self w) ->
  move_outcome angle E w = (Ok tt, w).
Proof.
  intros Heq. unfold move_outcome. rewrite Heq, Z.sub_diag. reflexivity.
Qed.

(** [move] when every step succeeds. *)
Lemma move_outcome_runs angle E w p m :
  clamp_target (self w) angle <> position (self w) ->
  plan_move (self w) (clamp_target (self w) angle - position (self w)) = Ok p ->
  motor (self w) = Some m ->
  fault E (length (calls w)) = None ->
  fault E (S (length (calls w))) = None ->
  fault E (S (S (length (calls w)))) = None ->
  move_outcome angle E w =
    (Ok tt,
     with_self (set_position (clamp_target (self w) angle) (self w))
       (with_calls [SetPower m (power p); Sleep (time_needed p); MotorStop m] w)).
Proof.
  intros Hne Hp Hm H0 H1 H2. unfold move_outcome.
  destruct (Z.eqb_spec (clamp_target (self w) angle - position (self w)) 0) as [Hz|_]; [lia|].
  by rewrite Hp, Hm, H0, H1, H2.
Qed.

(** A completed [move] was either the no-op or a full run. *)
Lemma move_ok_inv angle E w w' :
  move angle E w = (Ok tt, w') ->
  (clamp_target (self w) angle = position (self w) /\ w' = w) \/
  (clamp_target (self w) angle <> position (self w) /\
   exists p m,
     plan_move (self w) (clamp_target (self w) angle - position (self w)) = Ok p /\
     motor (self w) = Some m /\
     fault E (length (calls w)) = None /\
     fault E (S (length (calls w))) = None /\
     fault E (S (S (length (calls w)))) = None /\
     w' = with_self (set_position (clamp_target (self w) angle) (self w))
            (with_calls [SetPower m (power p); Sleep (time_needed p); MotorStop m] w)).
Proof.
  rewrite move_unfold. unfold move_outcome.
  destruct (Z.eqb_spec (clamp_target (self w) angle - position (self w)) 0) as [Hz|Hnz].
  { intros [= <-]. left. split; [lia | done]. }
  intros H. right. split; [lia|].
  destruct (plan_move _ _) as [p|e]; [|done].
  destruct (motor (self w)) as [m|]; [|done].
  destruct (fault E (length (calls w))); [done|].
  destruct (fault E (S (length (calls w)))); [done|].
  destruct (fault E (S (S (length (calls w))))); [done|].
  injection H as <-. by exists p, m.
Qed.

Lemma plan_move_power s d p : plan_move s d = Ok p -> power p = direction d.
Proof.
  unfold plan_move, result_bind.
  repeat match goal with
         | |- context [match ?x with Ok _ => _ | Err _ => _ end] => destruct x; [|done]
         end.
  by intros [= <-].
Qed.

(** ** Clamping of the target (claim C1) *)

Lemma clamp_target_clamp s angle :
  min_position_degrees s <= max_position_degrees s ->
  clamp_target s angle = clamp angle (min_position_degrees s) (max_position_degrees s).
Proof.
  intros Hle. unfold clamp_target, clamp.
  destruct (Z.ltb_spec angle (min_position_degrees s));
    destruct (Z.ltb_spec (max_position_degrees s) angle); lia.
Qed.

Lemma clamp_target_in_range s angle :
  min_position_degrees s <= max_position_degrees s ->
  min_position_degrees s <= clamp_target s angle <= max_position_degrees s.
Proof. unfold clamp_target. lia. Qed.

(** C1: whatever the integer target, inside or outside the configured
    range, a completed [move] leaves the position estimate equal to the
    target clamped into the range, so the estimate it leaves is within the
    range (the bounds themselves are not changed by the move). *)
Theorem move_sets_clamped_position angle E w w' :
  min_position_degrees (self w) <= max_position_degrees (self w) ->
  move angle E w = (Ok tt, w') ->
  position (self w') =
    clamp angle (min_position_degrees (self w)) (max_position_degrees (self w)) /\
  min_position_degrees (self w') = min_position_degrees (self w) /\
  max_position_degrees (self w') = max_position_degrees (self w) /\
  min_position_degrees (self w') <= position (self w') <= max_position_degrees (self w').
Proof.
  intros Hle Hmove.
  pose proof (clamp_target_clamp (self w) angle Hle) as Hc.
  pose proof (clamp_target_in_range (self w) angle Hle) as Hr.
  destruct (move_ok_inv _ _ _ _ Hmove) as [[Heq ->] | (_ & p & m & _ & _ & _ & _ & _ & ->)].
  - rewrite <- Heq, Hc in *. repeat split; lia.
  - cbn. rewrite <- Hc. repeat split; lia.
Qed.

Lemma move_sets_clamped_position_witness :
  position (self (snd (move 500 quiet sample_world))) = clamp 500 0 180 /\
  min_position_degrees (self (snd (move 500 quiet sample_world))) = 0 /\
  max_position_degrees (self (snd (move 500 quiet sample_world))) = 180 /\
  min_position_degrees (self (snd (move 500 quiet sample_world)))
    <= position (self (snd (move 500 quiet sample_world)))
    <= max_position_degrees (self (snd (move 500 quiet sample_world))).
Proof.
  apply (move_sets_clamped_position 500 quiet sample_world).
  - simpl. lia.
  - vm_compute. reflexivity.
Defined.

(** ** The duration law on the sample configuration (claim C2) *)



(** ** The no-op case (claim C6) *)

(** C6, as the code violates it: [reconfigure] stores [start_position]
    as it is given, so configured with [start_position = 200] over the
    default range the estimate is 200, and [move] to that estimate is not
    the no-op: it runs the motor backwards for 2 seconds and sets the
    estimate to 180. *)
Lemma move_to_estimate_runs_motor :
  fst (configure overshoot_attributes sample_dependencies quiet fresh_world) = Ok tt /\
  position (self (snd (configure overshoot_attributes sample_dependencies quiet fresh_world))) =
    200 /\
  new_calls (snd (configure overshoot_attributes sample_dependencies quiet fresh_world))
    (snd (move 200 quiet
            (snd (configure overshoot_attributes sample_dependencies quiet fresh_world)))) =
    [SetPower sample_motor (-1)%float; Sleep 2%float; MotorStop sample_motor] /\
  position
    (self (snd (move 200 quiet
                  (snd (configure overshoot_attributes sample_dependencies quiet fresh_world)))))
    = 180.
Proof. repeat split; vm_compute; reflexivity. Qed.

(** C6, amended: when the requested angle clamps to the current estimate,
    and so in particular when it is the estimate itself and the estimate
    lies within the configured range, [move] returns at once and the whole
    world is as before: no call reaches the motor driver, and neither the
    estimate nor anything else changes, so repeating the call changes
    nothing either. *)
Theorem move_noop angle E w :
  clamp_target (self w) angle = position (self w) \/
  (angle = position (self w) /\
   min_position_degrees (self w) <= position (self w) <= max_position_degrees (self w)) ->
  move angle E w = (Ok tt, w) /\
  new_calls w (snd (move angle E w)) = [] /\
  (move angle;; move angle) E w = (Ok tt, w).
Proof.
  intros Hnoop.
  assert (Heq : clamp_target (self w) angle = position (self w)).
  { destruct Hnoop as [Heq | [-> Hrange]]; [done|]. unfold clamp_target. lia. }
  assert (Hmove : move angle E w = (Ok tt, w)).
  { rewrite move_unfold. by apply move_outcome_noop. }
  split; [done|]. split.
  - rewrite Hmove. apply new_calls_same.
  - unfold mbind, M_bind. by rewrite !Hmove.
Qed.

Lemma move_noop_witness :
  move 0 quiet sample_world = (Ok tt, sample_world) /\
  new_calls sample_world (snd (move 0 quiet sample_world)) = [] /\
  (move 0;; move 0) quiet sample_world = (Ok tt, sample_world).
Proof.
  apply (move_noop 0 quiet sample_world).
  right. simpl. lia.
Defined.

(** ** The sign of the commanded power (claim C7) *)

(** C7: in a move that is not the no-op and reaches the motor, the first
    call is [set_power] with power [-1.0] when the clamped target is below
    the estimate and [+1.0] when it is above; no other [set_power] is
    issued. *)
Theorem move_direction angle E w p m :
  clamp_target (self w) angle <> position (self w) ->
  plan_move (self w) (clamp_target (self w) angle - position (self w)) = Ok p ->
  motor (self w) = Some m ->
  exists rest,
    new_calls w (snd (move angle E w)) =
      SetPower m (if clamp_target (self w) angle <? position (self w)
                  then (-1)%float else 1%float) :: rest /\
    forallb (fun e => negb (is_set_power e)) rest = true.
Proof.
  intros Hne Hp Hm.
  rewrite move_unfold. unfold move_outcome.
  destruct (Z.eqb_spec (clamp_target (self w) angle - position (self w)) 0); [lia|].
  rewrite Hp, Hm, (plan_move_power _ _ _ Hp). unfold direction.
  replace (0 <? clamp_target (self w) angle - position (self w))
    with (negb (clamp_target (self w) angle <? position (self w))).
  2:{ destruct (Z.ltb_spec (clamp_target (self w) angle) (position (self w)));
      destruct (Z.ltb_spec 0 (clamp_target (self w) angle - position (self w))); simpl; lia. }
  destruct (clamp_target (self w) angle <? position (self w)); simpl;
    destruct (fault E (length (calls w)));
    [| destruct (fault E (S (length (calls w))));
       [| destruct (fault E (S (S (length (calls w)))))]
     | | destruct (fault E (S (length (calls w))));
       [| destruct (fault E (S (S (length (calls w)))))]];
    simpl; autorewrite with trace;
    eexists; (split; [reflexivity | reflexivity]).
Qed.

Lemma move_direction_witness :
  exists rest,
    new_calls sample_world (snd (move 90 quiet sample_world)) =
      SetPower sample_motor (if clamp_target sample_servo 90 <? 0
                             then (-1)%float else 1%float) :: rest /\
    forallb (fun e => negb (is_set_power e)) rest = true.
Proof.
  apply (move_direction 90 quiet sample_world
           {| inches_per_degree := 0.1%float; inches_to_move := 9%float;
              mm_to_move := 228.6%float; time_needed := 9%float; power := 1%float |}
           sample_motor).
  - vm_compute. discriminate.
  - vm_compute. reflexivity.
  - reflexivity.
Defined.

(** ** Sequences of moves *)

(** What a completed [move] leaves behind: the object with its estimate
    at the clamped target, and the calls of one run (none in the no-op
    case) appended to the trace. *)
Lemma move_ok_summary angle E w w' :
  move angle E w = (Ok tt, w') ->
  self w' = set_position (clamp_target (self w) angle) (self w) /\
  logged w' = logged w /\ tasks w' = tasks w /\
  exists l,
    calls w' = calls w ++ l /\
    (clamp_target (self w) angle = position (self w) -> l = []) /\
    (clamp_target (self w) angle <> position (self w) ->
     exists p m,
       plan_move (self w) (clamp_target (self w) angle - position (self w)) = Ok p /\
       motor (self w) = Some m /\
       l = [SetPower m (power p); Sleep (time_needed p); MotorStop m]).
Proof.
  intros Hmove.
  destruct (move_ok_inv _ _ _ _ Hmove)
    as [[Heq ->] | (Hne & p & m & Hp & Hm & _ & _ & _ & ->)].
  - rewrite Heq, set_position_same. repeat split.
    exists []. rewrite app_nil_r. repeat split. all: done.
  - do 3 (split; [done|]).
    exists [SetPower m (power p); Sleep (time_needed p); MotorStop m].
    split; [done|]. split; [congruence|]. intros _. by exists p, m.
Qed.

(** The run duration depends on the configuration and on the size of the
    angle delta only, not on its sign. *)
Lemma plan_move_time s s' d d' p p' :
  length_inches s = length_inches s' ->
  total_degrees s = total_degrees s' ->
  mm_per_second s = mm_per_second s' ->
  Z.abs d = Z.abs d' ->
  plan_move s d = Ok p ->
  plan_move s' d' = Ok p' ->
  time_needed p = time_needed p'.
Proof.
  unfold plan_move, result_bind. intros -> -> -> ->.
  repeat match goal with
         | |- context [match ?x with Ok _ => _ | Err _ => _ end] => destruct x; [|done]
         end.
  by intros [= <-] [= <-].
Qed.

Lemma run_duration_abs s d d' :
  Z.abs d = Z.abs d' -> run_duration s d = run_duration s d'.
Proof.
  unfold run_duration, plan_move, result_bind. intros ->.
  repeat match goal with
         | |- context [match ?x with Ok _ => _ | Err _ => _ end] => destruct x; [|done]
         end.
  done.
Qed.

(** ** Round trips (claim C8) *)

(** C8: for angles [X] and [Y] inside the configured range, a completed
    [move X; move Y; move X] leaves the estimate at [X]; the run duration
    computed for the leg from [X] to [Y] is the one computed for the leg
    from [Y] to [X], and when [X] and [Y] differ the trace ends with these
    two legs, both sleeping for that same duration. *)
Theorem move_round_trip X Y E w w' :
  min_position_degrees (self w) <= X <= max_position_degrees (self w) ->
  min_position_degrees (self w) <= Y <= max_position_degrees (self w) ->
  (move X;; move Y;; move X) E w = (Ok tt, w') ->
  position (self w') = X /\
  run_duration (self w) (Y - X) = run_duration (self w) (X - Y) /\
  (X <> Y ->
   exists m t first_leg,
     run_duration (self w) (Y - X) = Ok t /\
     new_calls w w' =
       first_leg ++
       [SetPower m (direction (Y - X)); Sleep t; MotorStop m;
        SetPower m (direction (X - Y)); Sleep t; MotorStop m]).
Proof.
  intros HX HY. unfold mbind, M_bind.
  destruct (move X E w) as [[[]|e1] w1] eqn:H1; [|done].
  destruct (move Y E w1) as [[[]|e2] w2] eqn:H2; [|done].
  intros H3.
  apply move_ok_summary in H1 as (Hs1 & _ & _ & l1 & Hc1 & _).
  apply move_ok_summary in H2 as (Hs2 & _ & _ & l2 & Hc2 & _ & Hl2).
  apply move_ok_summary in H3 as (Hs3 & _ & _ & l3 & Hc3 & _ & Hl3).
  assert (HcX : clamp_target (self w) X = X) by (unfold clamp_target; lia).
  assert (HcY : clamp_target (self w1) Y = Y) by (rewrite Hs1; unfold clamp_target; simpl; lia).
  assert (HcX' : clamp_target (self w2) X = X)
    by (rewrite Hs2, Hs1; unfold clamp_target; simpl; lia).
  rewrite HcX in Hs1. rewrite HcY in Hs2, Hl2. rewrite HcX' in Hs3, Hl3.
  split; [by rewrite Hs3|].
  split; [apply run_duration_abs; lia|].
  intros Hne.
  destruct Hl2 as (p2 & m2 & Hp2 & Hm2 & ->); [rewrite Hs1; simpl; lia|].
  destruct Hl3 as (p3 & m3 & Hp3 & Hm3 & ->); [rewrite Hs2; simpl; lia|].
  rewrite Hs1 in Hp2, Hm2. rewrite Hs2, Hs1 in Hp3, Hm3. simpl in *.
  assert (m3 = m2) as -> by congruence.
  assert (Ht : time_needed p3 = time_needed p2).
  { eapply (plan_move_time _ _ (X - Y) (Y - X)); [..| exact Hp3 | exact Hp2]; simpl; try done. lia. }
  exists m2, (time_needed p2), l1. split.
  - unfold run_duration, plan_move in *. simpl in Hp2. by rewrite Hp2.
  - unfold new_calls. rewrite Hc3, Hc2, Hc1, <- !app_assoc, drop_app_length.
    rewrite (plan_move_power _ _ _ Hp2), (plan_move_power _ _ _ Hp3), Ht. reflexivity.
Qed.

Lemma move_round_trip_witness :
  position (self (snd ((move 30;; move 120;; move 30) quiet sample_world))) = 30 /\
  run_duration sample_servo (120 - 30) = run_duration sample_servo (30 - 120) /\
  (30 <> 120 ->
   exists m t first_leg,
     run_duration sample_servo (120 - 30) = Ok t /\
     new_calls sample_world (snd ((move 30;; move 120;; move 30) quiet sample_world)) =
       first_leg ++
       [SetPower m (direction (120 - 30)); Sleep t; MotorStop m;
        SetPower m (direction (30 - 120)); Sleep t; MotorStop m]).
Proof.
  apply (move_round_trip 30 120 quiet sample_world).
  - simpl. lia.
  - simpl. lia.
  - vm_compute. reflexivity.
Defined.

(** ** Calibration (claim C4) *)

(** A run of [move] in an environment that lets its three calls return. *)
Lemma move_runs angle E w p m :
  clamp_target (self w) angle <> position (self w) ->
  plan_move (self w) (clamp_target (self w) angle - position (self w)) = Ok p ->
  motor (self w) = Some m ->
  (forall k, (k < 3)%nat -> fault E (length (calls w) + k) = None) ->
  move angle E w =
    (Ok tt,
     with_self (set_position (clamp_target (self w) angle) (self w))
       (with_calls [SetPower m (power p); Sleep (time_needed p); MotorStop m] w)).
Proof.
  intros Hne Hp Hm Hq. rewrite move_unfold.
  apply move_outcome_runs; try done.
  - rewrite <- (Nat.add_0_r (length _)). apply Hq. lia.
  - rewrite <- Nat.add_1_r. apply Hq. lia.
  - replace (S (S (length (calls w)))) with (length (calls w) + 2)%nat by lia.
    apply Hq. lia.
Qed.

(** A completed calibration is three completed moves: to the minimum, to
    the maximum, and to the estimate captured before the first of them. *)
Lemma initialize_ok_inv E w w' :
  initialize E w = (Ok tt, w') ->
  exists wa wb wc,
    move (min_position_degrees (self w)) E
      (with_log (MovingToMinimum (min_position_degrees (self w)))
         (with_log CalibrationStarting w)) = (Ok tt, wa) /\
    move (max_position_degrees (self wa)) E
      (with_log (MovingToMaximum (max_position_degrees (self wa))) wa) = (Ok tt, wb) /\
    move (position (self w)) E
      (with_log (MovingToTarget (position (self w))) wb) = (Ok tt, wc) /\
    w' = with_log CalibrationCompleted wc.
Proof.
  unfold initialize, mbind, M_bind, log, get_self. cbn [self with_log].
  destruct (move (min_position_degrees (self w)) E _) as [[[]|e1] wa] eqn:Ha; [|done].
  destruct (move (max_position_degrees (self wa)) E _) as [[[]|e2] wb] eqn:Hb; [|done].
  destruct (move (position (self w)) E _) as [[[]|e3] wc] eqn:Hc; [|done].
  intros [= <-]. by exists wa, wb, wc.
Qed.

Lemma reconfigure_resolved attributes dependencies name m E w :
  attr_motor attributes = Some name ->
  dependencies !! get_resource_name name = Some m ->
  reconfigure attributes dependencies E w =
    (Ok tt, with_task Initialize (with_self (configured attributes m (self w)) w)).
Proof.
  intros Hname Hdep. unfold reconfigure. rewrite Hname.
  change (str (Some name)) with name. by rewrite Hdep.
Qed.

(** The scenario, by the plans of its three legs: a calibration that
    completes has run them in order, and it completes whenever the three
    plans can be computed and the nine awaited calls return. *)
Lemma calibration_legs attributes dependencies name m E w :
  attr_motor attributes = Some name ->
  dependencies !! get_resource_name name = Some m ->
  attr_start_position attributes = Some 45 ->
  attr_min_position_degrees attributes = Some 0 ->
  attr_max_position_degrees attributes = Some 180 ->
  exists w1,
    reconfigure attributes dependencies E w = (Ok tt, w1) /\
    position (self w1) = 45 /\
    tasks w1 = tasks w ++ [Initialize] /\
    (forall E' w2,
       run_task Initialize E' w1 = (Ok tt, w2) ->
       exists p1 p2 p3,
         plan_move (self w1) (0 - 45) = Ok p1 /\
         plan_move (self w1) (180 - 0) = Ok p2 /\
         plan_move (self w1) (45 - 180) = Ok p3 /\
         new_calls w1 w2 =
           [SetPower m (-1)%float; Sleep (time_needed p1); MotorStop m;
            SetPower m 1%float; Sleep (time_needed p2); MotorStop m;
            SetPower m (-1)%float; Sleep (time_needed p3); MotorStop m] /\
         position (self w2) = 45) /\
    (forall E' p1 p2 p3,
       plan_move (self w1) (0 - 45) = Ok p1 ->
       plan_move (self w1) (180 - 0) = Ok p2 ->
       plan_move (self w1) (45 - 180) = Ok p3 ->
       (forall k, (k < 9)%nat -> fault E' (length (calls w1) + k) = None) ->
       exists w2, run_task Initialize E' w1 = (Ok tt, w2)).
Proof.
  intros Hname Hdep Hstart Hmin Hmax.
  eexists. split; [by apply (reconfigure_resolved _ _ name m)|].
  set (s1 := configured attributes m (self w)).
  assert (Hpos1 : position s1 = 45) by (unfold s1; simpl; by rewrite Hstart).
  assert (Hmin1 : min_position_degrees s1 = 0) by (unfold s1; simpl; by rewrite Hmin).
  assert (Hmax1 : max_position_degrees s1 = 180) by (unfold s1; simpl; by rewrite Hmax).
  assert (Hm1 : motor s1 = Some m) by done.
  assert (Hc0 : clamp_target s1 0 = 0) by (unfold clamp_target; lia).
  assert (Hc180 : clamp_target (set_position 0 s1) 180 = 180)
    by (unfold clamp_target; world_simpl; lia).
  assert (Hc45 : clamp_target (set_position 180 (set_position 0 s1)) 45 = 45)
    by (unfold clamp_target; world_simpl; lia).
  clearbody s1. world_simpl.
  split; [done|]. split; [done|]. split.
  - intros E' w2 Hrun. unfold run_task in Hrun.
    apply initialize_ok_inv in Hrun as (wa & wb & wc & Ha & Hb & Hc & ->).
    world_simpl. rewrite Hmin1, Hpos1 in *.
    apply move_ok_summary in Ha as (Hsa & _ & _ & la & Hca & _ & Hla).
    world_simpl. rewrite Hc0, Hpos1 in *.
    rewrite Hsa in Hb. world_simpl. rewrite Hmax1 in Hb.
    apply move_ok_summary in Hb as (Hsb & _ & _ & lb & Hcb & _ & Hlb).
    world_simpl. rewrite Hsa in Hsb, Hlb. world_simpl. rewrite Hc180 in Hsb, Hlb.
    apply move_ok_summary in Hc as (Hsc & _ & _ & lc & Hcc & _ & Hlc).
    world_simpl. rewrite Hsb in Hsc, Hlc. world_simpl. rewrite Hc45 in Hsc, Hlc.
    destruct Hla as (p1 & m1 & Hp1 & Hm1' & ->); [lia|].
    destruct Hlb as (p2 & m2 & Hp2 & Hm2 & ->); [lia|].
    destruct Hlc as (p3 & m3 & Hp3 & Hm3 & ->); [lia|].
    rewrite !plan_move_set_position in Hp2, Hp3.
    assert (m1 = m) as -> by congruence.
    assert (m2 = m) as -> by congruence.
    assert (m3 = m) as -> by congruence.
    exists p1, p2, p3. repeat (split; [done|]). split.
    + unfold new_calls. world_simpl.
      rewrite Hcc, Hcb, Hca, <- !app_assoc, drop_app_length.
      rewrite (plan_move_power _ _ _ Hp1), (plan_move_power _ _ _ Hp2),
        (plan_move_power _ _ _ Hp3).
      reflexivity.
    + by rewrite Hsc.
  - intros E' p1 p2 p3 Hp1 Hp2 Hp3 Hq.
    unfold run_task, initialize, mbind, M_bind, log, get_self.
    world_simpl. rewrite Hmin1, Hpos1. eexists.
    match goal with
    | |- context [move 0 E' ?W] => pose proof (move_runs 0 E' W p1 m) as Ha
    end.
    world_simpl. rewrite Hc0, Hpos1 in Ha.
    rewrite (Ha ltac:(lia) Hp1 Hm1 ltac:(intros k Hk; apply Hq; lia)). clear Ha.
    world_simpl. rewrite Hmax1.
    match goal with
    | |- context [move 180 E' ?W] => pose proof (move_runs 180 E' W p2 m) as Hb
    end.
    world_simpl. rewrite Hc180 in Hb.
    rewrite (Hb ltac:(lia) Hp2 Hm1
               ltac:(intros k Hk; rewrite length_app; cbn [length];
                     rewrite <- Nat.add_assoc; apply Hq; lia)).
    clear Hb. world_simpl.
    match goal with
    | |- context [move 45 E' ?W] => pose proof (move_runs 45 E' W p3 m) as Hc
    end.
    world_simpl. rewrite Hc45 in Hc.
    rewrite (Hc ltac:(lia) Hp3 Hm1
               ltac:(intros k Hk; rewrite !length_app; cbn [length];
                     rewrite <- !Nat.add_assoc; apply Hq; simpl; lia)).
    reflexivity.
Qed.

(** The plan of a move, from the values of the fields it reads. *)
Lemma plan_move_computed s d length_inches_ mm_per_second_ ipd fd :
  length_inches s = Some length_inches_ ->
  mm_per_second s = Some mm_per_second_ ->
  float_truediv_int length_inches_ (total_degrees s) = Ok ipd ->
  float_of_int (Z.abs d) = Ok fd ->
  PrimFloat.eqb mm_per_second_ 0%float = false ->
  plan_move s d =
    Ok {| inches_per_degree := ipd;
          inches_to_move := (fd * ipd)%float;
          mm_to_move := (fd * ipd * 25.4)%float;
          time_needed := (fd * ipd * 25.4 / mm_per_second_)%float;
          power := direction d |}.
Proof.
  intros Hlen Hspeed Hipd Hfd Hnz.
  unfold plan_move, int_mul_float, float_truediv.
  rewrite Hlen, Hspeed. cbn [attr result_bind].
  rewrite Hipd. cbn [result_bind]. rewrite Hfd. cbn [result_bind].
  by rewrite Hnz.
Qed.

(** C4: configured with [start_position = 45], [min_position_degrees = 0]
    and [max_position_degrees = 180], an actuator length and a non-zero
    speed, over a non-zero span, the controller starts with the estimate at
    45 and one calibration task scheduled.  Run in an environment where the
    nine awaited calls return, the calibration completes: it performs
    exactly three legs, each with the power and the duration [move]
    computes for it, 45 to 0 (power -1), 0 to 180 (power +1) and 180 to 45
    (power -1), and leaves the estimate at 45.  In any environment, a
    calibration that completes has made exactly these calls and leaves the
    estimate at 45. *)
Theorem calibration_scenario
    attributes dependencies name m length_inches_ mm_per_second_ ipd E w E' :
  attr_motor attributes = Some name ->
  dependencies !! get_resource_name name = Some m ->
  attr_start_position attributes = Some 45 ->
  attr_min_position_degrees attributes = Some 0 ->
  attr_max_position_degrees attributes = Some 180 ->
  attr_length_inches attributes = Some length_inches_ ->
  attr_mm_per_second attributes = Some mm_per_second_ ->
  float_truediv_int length_inches_
    (default (total_degrees (self w)) (attr_total_degrees attributes)) = Ok ipd ->
  PrimFloat.eqb mm_per_second_ 0%float = false ->
  (forall k, (k < 9)%nat -> fault E' (length (calls w) + k) = None) ->
  exists w1 w2,
    reconfigure attributes dependencies E w = (Ok tt, w1) /\
    position (self w1) = 45 /\
    tasks w1 = tasks w ++ [Initialize] /\
    run_task Initialize E' w1 = (Ok tt, w2) /\
    new_calls w1 w2 =
      [SetPower m (-1)%float; Sleep (45 * ipd * 25.4 / mm_per_second_)%float; MotorStop m;
       SetPower m 1%float; Sleep (180 * ipd * 25.4 / mm_per_second_)%float; MotorStop m;
       SetPower m (-1)%float; Sleep (135 * ipd * 25.4 / mm_per_second_)%float; MotorStop m] /\
    position (self w2) = 45 /\
    forall E'' w3,
      run_task Initialize E'' w1 = (Ok tt, w3) ->
      new_calls w1 w3 =
        [SetPower m (-1)%float; Sleep (45 * ipd * 25.4 / mm_per_second_)%float; MotorStop m;
         SetPower m 1%float; Sleep (180 * ipd * 25.4 / mm_per_second_)%float; MotorStop m;
         SetPower m (-1)%float; Sleep (135 * ipd * 25.4 / mm_per_second_)%float; MotorStop m] /\
      position (self w3) = 45.
Proof.
  intros Hname Hdep Hstart Hmin Hmax Hlen Hspeed Hipd Hnz Hquiet.
  destruct (calibration_legs attributes dependencies name m E w Hname Hdep Hstart Hmin Hmax)
    as (w1 & Hcfg & Hpos & Htasks & Hany & Hruns).
  pose proof Hcfg as Hw1. rewrite (reconfigure_resolved _ _ name m) in Hw1 by done.
  injection Hw1 as Hw1.
  assert (Hplan : forall d fd, float_of_int (Z.abs d) = Ok fd ->
            plan_move (self w1) d =
              Ok {| inches_per_degree := ipd;
                    inches_to_move := (fd * ipd)%float;
                    mm_to_move := (fd * ipd * 25.4)%float;
                    time_needed := (fd * ipd * 25.4 / mm_per_second_)%float;
                    power := direction d |}).
  { intros d fd Hfd.
    apply (plan_move_computed _ d length_inches_ mm_per_second_); try done.
    - rewrite <- Hw1. world_simpl. unfold configured. cbn. by rewrite Hlen.
    - rewrite <- Hw1. world_simpl. unfold configured. cbn. by rewrite Hspeed.
    - rewrite <- Hw1. world_simpl. unfold configured. by cbn. }
  pose proof (Hplan (0 - 45) 45%float eq_refl) as Hp1.
  pose proof (Hplan (180 - 0) 180%float eq_refl) as Hp2.
  pose proof (Hplan (45 - 180) 135%float eq_refl) as Hp3.
  assert (Hany' : forall E'' w3,
            run_task Initialize E'' w1 = (Ok tt, w3) ->
            new_calls w1 w3 =
              [SetPower m (-1)%float; Sleep (45 * ipd * 25.4 / mm_per_second_)%float;
               MotorStop m;
               SetPower m 1%float; Sleep (180 * ipd * 25.4 / mm_per_second_)%float;
               MotorStop m;
               SetPower m (-1)%float; Sleep (135 * ipd * 25.4 / mm_per_second_)%float;
               MotorStop m] /\
            position (self w3) = 45).
  { intros E'' w3 Hrun.
    destruct (Hany E'' w3 Hrun) as (p1 & p2 & p3 & Hq1 & Hq2 & Hq3 & Hcalls & Hend).
    rewrite Hp1 in Hq1. rewrite Hp2 in Hq2. rewrite Hp3 in Hq3.
    injection Hq1 as <-. injection Hq2 as <-. injection Hq3 as <-.
    split; [exact Hcalls | exact Hend]. }
  destruct (Hruns E' _ _ _ Hp1 Hp2 Hp3) as (w2 & Hrun).
  { intros k Hk. rewrite <- Hw1. world_simpl. by apply Hquiet. }
  destruct (Hany' E' w2 Hrun) as (Hcalls & Hend).
  exists w1, w2. repeat (split; [done|]). exact Hany'.
Qed.

(** The scenario on the sample actuator: the calibration runs, and its
    three legs last 4.5, 18 and 13.5 seconds. *)
Lemma calibration_scenario_witness :
  exists w1 w2,
    reconfigure sample_attributes sample_dependencies quiet fresh_world = (Ok tt, w1) /\
    position (self w1) = 45 /\
    tasks w1 = tasks fresh_world ++ [Initialize] /\
    run_task Initialize quiet w1 = (Ok tt, w2) /\
    new_calls w1 w2 =
      [SetPower sample_motor (-1)%float; Sleep 4.5%float; MotorStop sample_motor;
       SetPower sample_motor 1%float; Sleep 18%float; MotorStop sample_motor;
       SetPower sample_motor (-1)%float; Sleep 13.5%float; MotorStop sample_motor] /\
    position (self w2) = 45 /\
    forall E'' w3,
      run_task Initialize E'' w1 = (Ok tt, w3) ->
      new_calls w1 w3 =
        [SetPower sample_motor (-1)%float; Sleep 4.5%float; MotorStop sample_motor;
         SetPower sample_motor 1%float; Sleep 18%float; MotorStop sample_motor;
         SetPower sample_motor (-1)%float; Sleep 13.5%float; MotorStop sample_motor] /\
      position (self w3) = 45.
Proof.
  apply (calibration_scenario sample_attributes sample_dependencies "m1" sample_motor
           18%float 25.4%float 0.1%float quiet fresh_world quiet); reflexivity.
Defined.

(** The scenario run to its end on the sample actuator: the three legs
    last 4.5, 18 and 13.5 seconds. *)
Example calibration_sample_run :
  exists w1 w2,
    reconfigure sample_attributes sample_dependencies quiet fresh_world = (Ok tt, w1) /\
    run_task Initialize quiet w1 = (Ok tt, w2) /\
    calls w2 =
      [SetPower sample_motor (-1)%float; Sleep 4.5%float; MotorStop sample_motor;
       SetPower sample_motor 1%float; Sleep 18%float; MotorStop sample_motor;
       SetPower sample_motor (-1)%float; Sleep 13.5%float; MotorStop sample_motor] /\
    position (self w2) = 45.
Proof. do 2 eexists. repeat split; vm_compute; reflexivity. Qed.

(** ** Interrupted moves (claim C5) *)


(** The calls of a run of [move] are appended to the trace. *)
Lemma move_outcome_extends angle E w :
  calls (snd (move_outcome angle E w)) =
    calls w ++ new_calls w (snd (move_outcome angle E w)).
Proof.
  unfold move_outcome.
  repeat match goal with
         | |- context [if ?b then _ else _] => destruct b
         | |- context [match ?x with Ok _ => _ | Err _ => _ end] => destruct x
         | |- context [match ?x with Some _ => _ | None => _ end] => destruct x
         end;
    cbn [snd];
    autorewrite with trace; rewrite ?app_nil_r;
    reflexivity.
Qed.


(** ** Zero denominators (claim C3) *)

(** C3, as the code violates it: with [total_degrees = 0] the validation
    step and [reconfigure] both succeed and calibration is scheduled; the
    division by zero is raised later, by [move]. *)
Lemma zero_total_degrees_accepted :
  validate_config zero_span_attributes = Ok (["m1"], []) /\
  fst (configure zero_span_attributes sample_dependencies quiet fresh_world) = Ok tt /\
  tasks (snd (configure zero_span_attributes sample_dependencies quiet fresh_world)) =
    [Initialize] /\
  fst (move 0 quiet (snd (configure zero_span_attributes sample_dependencies quiet fresh_world)))
    = Err ZeroDivisionError.
Proof. repeat split; vm_compute; reflexivity. Qed.

Lemma float_of_int_error z e : float_of_int z = Err e -> e = OverflowError.
Proof.
  unfold float_of_int. destruct (binary_normalize _ _ _ _ _); congruence.
Qed.

Lemma float_truediv_error a b e : float_truediv a b = Err e -> e = ZeroDivisionError.
Proof. unfold float_truediv. destruct (PrimFloat.eqb b 0); congruence. Qed.

(** With a zero denominator no duration can be computed. *)
Lemma plan_move_zero_denominator s d length_inches_ mm_per_second_ :
  length_inches s = Some length_inches_ ->
  mm_per_second s = Some mm_per_second_ ->
  total_degrees s = 0 \/ PrimFloat.eqb mm_per_second_ 0%float = true ->
  exists e,
    plan_move s d = Err e /\
    (e = ZeroDivisionError \/ e = OverflowError) /\
    (total_degrees s = 0 -> e = ZeroDivisionError).
Proof.
  intros Hlen Hspeed Hzero. unfold plan_move. rewrite Hlen, Hspeed. cbn [attr result_bind].
  destruct (Z.eq_dec (total_degrees s) 0) as [Ht|Ht].
  { rewrite Ht. exists ZeroDivisionError. split; [done|]. split; [by left|done]. }
  destruct Hzero as [?|Hz]; [done|].
  destruct (float_truediv_int length_inches_ (total_degrees s)) as [ipd|e] eqn:Hipd.
  2:{ exists e. split; [done|]. split; [|done].
      unfold float_truediv_int in Hipd.
      destruct (float_of_int (total_degrees s)) as [td|e'] eqn:Htd; cbn [result_bind] in Hipd.
      - left. by apply float_truediv_error in Hipd.
      - right. injection Hipd as <-. by apply float_of_int_error in Htd. }
  cbn [result_bind]. unfold int_mul_float.
  destruct (float_of_int (Z.abs d)) as [fd|e] eqn:Hfd; cbn [result_bind].
  2:{ apply float_of_int_error in Hfd as ->.
      exists OverflowError. split; [done|]. split; [by right|done]. }
  unfold float_truediv. rewrite Hz. cbn [result_bind].
  exists ZeroDivisionError. split; [done|]. split; [by left|done].
Qed.

(** C3, amended: a configuration whose [total_degrees] or [mm_per_second]
    is zero passes the validation step and [reconfigure], and calibration
    is scheduled.  The zero surfaces in [move]: every move that is not the
    no-op raises before any call reaches the motor and leaves the world as
    it was; the error is [ZeroDivisionError], unless [total_degrees] is not
    zero and converting an int operand to float overflowed first. *)
Theorem zero_denominator_surfaces_in_move
    attributes dependencies name m length_inches_ mm_per_second_ E w :
  attr_motor attributes = Some name ->
  dependencies !! get_resource_name name = Some m ->
  attr_length_inches attributes = Some length_inches_ ->
  attr_mm_per_second attributes = Some mm_per_second_ ->
  attr_total_degrees attributes = Some 0 \/ PrimFloat.eqb mm_per_second_ 0%float = true ->
  exists w1,
    validate_config attributes = Ok ([name], []) /\
    configure attributes dependencies E w = (Ok tt, w1) /\
    tasks w1 = tasks w ++ [Initialize] /\
    forall angle E',
      clamp_target (self w1) angle <> position (self w1) ->
      exists e,
        move angle E' w1 = (Err e, w1) /\
        (e = ZeroDivisionError \/ e = OverflowError) /\
        (attr_total_degrees attributes = Some 0 -> e = ZeroDivisionError).
Proof.
  intros Hname Hdep Hlen Hspeed Hzero.
  assert (Hv : validate_config attributes = Ok ([name], []))
    by (unfold validate_config; by rewrite Hname, Hlen, Hspeed).
  eexists. split; [exact Hv|]. split.
  { unfold configure, mbind, M_bind, lift. rewrite Hv.
    by apply (reconfigure_resolved _ _ name m). }
  world_simpl. split; [done|].
  intros angle E' Hne.
  set (s1 := configured attributes m (self w)) in *.
  destruct (plan_move_zero_denominator s1
              (clamp_target s1 angle - position s1) length_inches_ mm_per_second_)
    as (e & Hp & He & He0).
  - unfold s1. simpl. by rewrite Hlen.
  - unfold s1. simpl. by rewrite Hspeed.
  - destruct Hzero as [Hz|Hz]; [left | by right]. unfold s1. simpl. by rewrite Hz.
  - exists e. split; [|split; [done|]].
    + rewrite move_unfold. unfold move_outcome. world_simpl.
      destruct (Z.eqb_spec (clamp_target s1 angle - position s1) 0); [lia|].
      by rewrite Hp.
    + intros Hz. apply He0. unfold s1. simpl. by rewrite Hz.
Qed.

Lemma zero_denominator_surfaces_in_move_witness :
  exists w1,
    validate_config zero_span_attributes = Ok (["m1"], []) /\
    configure zero_span_attributes sample_dependencies quiet fresh_world = (Ok tt, w1) /\
    tasks w1 = tasks fresh_world ++ [Initialize] /\
    forall angle E',
      clamp_target (self w1) angle <> position (self w1) ->
      exists e,
        move angle E' w1 = (Err e, w1) /\
        (e = ZeroDivisionError \/ e = OverflowError) /\
        (attr_total_degrees zero_span_attributes = Some 0 -> e = ZeroDivisionError).
Proof.
  apply (zero_denominator_surfaces_in_move zero_span_attributes sample_dependencies
           "m1" sample_motor 18%float 25.4%float quiet fresh_world); try reflexivity.
  left. reflexivity.
Defined.

(** ** Missing required attributes (claim C9) *)

(** C9: when [motor], [length_inches] or [mm_per_second] is missing from
    the attributes, [validate_config] raises; the intake of the
    configuration then fails with that error and leaves the world as it
    was, in particular with no calibration task added. *)
Theorem missing_required_attribute_rejected attributes :
  attr_motor attributes = None \/
  attr_length_inches attributes = None \/
  attr_mm_per_second attributes = None ->
  exists msg,
    validate_config attributes = Err (Exception msg) /\
    forall dependencies E w,
      configure attributes dependencies E w = (Err (Exception msg), w) /\
      tasks (snd (configure attributes dependencies E w)) = tasks w.
Proof.
  intros Hmissing.
  assert (Hv : exists msg, validate_config attributes = Err (Exception msg)).
  { unfold validate_config.
    destruct (attr_motor attributes) as [name|]; [|by eexists].
    destruct (attr_length_inches attributes) as [len|]; [|by eexists].
    destruct (attr_mm_per_second attributes) as [speed|]; [|by eexists].
    by destruct Hmissing as [?|[?|?]]. }
  destruct Hv as [msg Hv]. exists msg. split; [done|].
  intros dependencies E w.
  unfold configure, mbind, M_bind, lift. by rewrite Hv.
Qed.

Lemma missing_required_attribute_rejected_witness :
  exists msg,
    validate_config no_speed_attributes = Err (Exception msg) /\
    forall dependencies E w,
      configure no_speed_attributes dependencies E w = (Err (Exception msg), w) /\
      tasks (snd (configure no_speed_attributes dependencies E w)) = tasks w.
Proof.
  apply (missing_required_attribute_rejected no_speed_attributes).
  right. right. reflexivity.
Defined.

Example validate_config_messages :
  validate_config no_speed_attributes = Err (Exception "mm_per_second is required") /\
  validate_config sample_attributes = Ok (["m1"], []).
Proof. split; reflexivity. Qed.

(** ** Operations that only observe (claim C10) *)

Lemma stop_unfold E w :
  stop E w =
    match motor (self w) with
    | None => (Err (AttributeError "motor"), w)
    | Some m =>
      match fault E (length (calls w)) with
      | Some x => (Err x, with_calls [MotorStop m] w)
      | None => (Ok tt, with_calls [MotorStop m] w)
      end
    end.
Proof.
  unfold stop, mbind, M_bind, getattr, await.
  destruct (motor (self w)); [|done]. by destruct (fault E _).
Qed.

Lemma is_moving_unfold E w :
  is_moving E w =
    match motor (self w) with
    | None => (Err (AttributeError "motor"), w)
    | Some m =>
      match fault E (length (calls w)) with
      | Some x => (Err x, with_calls [IsMoving m] w)
      | None => (Ok (moving E (length (calls w))), with_calls [IsMoving m] w)
      end
    end.
Proof.
  unfold is_moving, mbind, M_bind, getattr, await_bool.
  destruct (motor (self w)); [|done]. by destruct (fault E _).
Qed.

Lemma after_query_self E w q : self (after_query E w q) = self w.
Proof.
  destruct q; unfold after_query.
  - reflexivity.
  - rewrite stop_unfold. destruct (motor (self w)); [|done]. by destruct (fault E _).
  - rewrite is_moving_unfold. destruct (motor (self w)); [|done]. by destruct (fault E _).
Qed.

Lemma after_queries_self E qs : forall w, self (after_queries E qs w) = self w.
Proof.
  induction qs as [|q qs IH]; intros w; [done|].
  unfold after_queries in *. cbn [fold_left]. by rewrite IH, after_query_self.
Qed.

(** C10: [get_position] returns the stored estimate and leaves the whole
    world, trace included, as it was; [stop] and [is_moving] leave the
    controller object, the log and the scheduled tasks as they were, and
    the only call they make is the one they forward to the configured
    motor, [is_moving] returning the driver's answer.  Hence after any
    sequence of [get_position], [stop] and [is_moving] calls the object is
    unchanged and [get_position] returns what it returned before. *)
Theorem observers_leave_state E w :
  get_position E w = (Ok (position (self w)), w) /\
  (self (snd (stop E w)) = self w /\
   logged (snd (stop E w)) = logged w /\
   tasks (snd (stop E w)) = tasks w /\
   new_calls w (snd (stop E w)) =
     match motor (self w) with Some m => [MotorStop m] | None => [] end) /\
  (self (snd (is_moving E w)) = self w /\
   logged (snd (is_moving E w)) = logged w /\
   tasks (snd (is_moving E w)) = tasks w /\
   new_calls w (snd (is_moving E w)) =
     match motor (self w) with Some m => [IsMoving m] | None => [] end /\
   forall b, fst (is_moving E w) = Ok b -> b = moving E (length (calls w))) /\
  forall qs,
    self (after_queries E qs w) = self w /\
    fst (get_position E (after_queries E qs w)) = fst (get_position E w).
Proof.
  split; [reflexivity|]. split; [|split].
  - rewrite stop_unfold.
    destruct (motor (self w)); [destruct (fault E _)|]; cbn [snd];
      autorewrite with trace; done.
  - rewrite is_moving_unfold.
    destruct (motor (self w)); [destruct (fault E _)|]; cbn [fst snd];
      autorewrite with trace; repeat split; try done.
    by intros b [= <-].
  - intros qs. split; [apply after_queries_self|].
    unfold get_position, mbind, M_bind, get_self, mret, M_ret. cbn [fst].
    by rewrite after_queries_self.
Qed.

Example observers_sample_run :
  fst (get_position quiet (after_queries quiet [Stop; IsMovingQuery; GetPosition] sample_world))
    = Ok 0 /\
  calls (after_queries quiet [Stop; IsMovingQuery; GetPosition] sample_world)
    = [MotorStop sample_motor; IsMoving sample_motor].
Proof. split; reflexivity. Qed.

(** * Part III: further properties of the operations *)

(** ** What [move] leaves alone *)

Lemma same_configuration_refl s : same_configuration s s.
Proof. unfold same_configuration. by rewrite set_position_same. Qed.

Lemma same_configuration_set p s : same_configuration s (set_position p s).
Proof. reflexivity. Qed.

Lemma same_configuration_trans s1 s2 s3 :
  same_configuration s1 s2 -> same_configuration s2 s3 -> same_configuration s1 s3.
Proof. unfold same_configuration. intros H12 H23. rewrite H23 at 1. by rewrite H12. Qed.

Lemma same_configuration_clamp s s' angle :
  same_configuration s s' -> clamp_target s' angle = clamp_target s angle.
Proof. unfold same_configuration. by intros ->. Qed.

(** Every run of [move] either returns, with the estimate at the clamped
    target, or raises, with the object untouched; the log and the scheduled
    tasks are never touched and the trace only grows. *)
Lemma move_cases angle E w :
  ((fst (move angle E w) = Ok tt /\
    self (snd (move angle E w)) = set_position (clamp_target (self w) angle) (self w)) \/
   (exists e, fst (move angle E w) = Err e /\ self (snd (move angle E w)) = self w)) /\
  logged (snd (move angle E w)) = logged w /\
  tasks (snd (move angle E w)) = tasks w /\
  calls (snd (move angle E w)) = calls w ++ new_calls w (snd (move angle E w)).
Proof.
  rewrite move_unfold.
  pose proof (move_outcome_extends angle E w) as Hext. revert Hext.
  unfold move_outcome.
  destruct (Z.eqb_spec (clamp_target (self w) angle - position (self w)) 0) as [Hz|Hz].
  { cbn [fst snd]. intros Hext. split; [left; split; [done|] | done].
    replace (clamp_target (self w) angle) with (position (self w)) by lia.
    by rewrite set_position_same. }
  destruct (plan_move (self w) _) as [p|e0];
    [|cbn [fst snd]; intros Hext; split; [right; by eexists | done]].
  destruct (motor (self w)) as [m|];
    [|cbn [fst snd]; intros Hext; split; [right; by eexists | done]].
  destruct (fault E (length (calls w)));
    [cbn [fst snd]; intros Hext; split; [right; by eexists | done]|].
  destruct (fault E (S (length (calls w))));
    [cbn [fst snd]; intros Hext; split; [right; by eexists | done]|].
  destruct (fault E (S (S (length (calls w))))); cbn [fst snd]; intros Hext.
  - split; [right; by eexists | done].
  - split; [by left | done].
Qed.

(** X1: whatever the environment does and however the call ends, [move]
    changes no field of the controller other than the position estimate,
    logs nothing and schedules nothing. *)
Theorem move_preserves_configuration angle E w :
  same_configuration (self w) (self (snd (move angle E w))) /\
  motor (self (snd (move angle E w))) = motor (self w) /\
  min_position_degrees (self (snd (move angle E w))) = min_position_degrees (self w) /\
  max_position_degrees (self (snd (move angle E w))) = max_position_degrees (self w) /\
  total_degrees (self (snd (move angle E w))) = total_degrees (self w) /\
  mm_per_second (self (snd (move angle E w))) = mm_per_second (self w) /\
  length_inches (self (snd (move angle E w))) = length_inches (self w) /\
  start_position (self (snd (move angle E w))) = start_position (self w) /\
  logged (snd (move angle E w)) = logged w /\
  tasks (snd (move angle E w)) = tasks w.
Proof.
  destruct (move_cases angle E w) as ([[_ Hs] | (e & _ & Hs)] & Hl & Ht & _);
    rewrite Hs; repeat split; try done.
  apply same_configuration_refl.
Qed.

(** ** The range invariant *)

Lemma after_request_step E w r :
  in_range (self w) ->
  in_range (self (after_request E w r)) /\
  same_configuration (self w) (self (after_request E w r)).
Proof.
  intros Hr. destruct r as [angle|q]; cbn [after_request].
  - destruct (move_cases angle E w) as ([[_ Hs] | (e & _ & Hs)] & _); rewrite Hs.
    + split; [|apply same_configuration_set].
      unfold in_range, clamp_target in *. world_simpl. lia.
    + split; [done | apply same_configuration_refl].
  - rewrite after_query_self. split; [done | apply same_configuration_refl].
Qed.

(** X2: once the estimate lies within the configured range it stays
    there, and the configuration stays what it is, through any sequence of
    [move], [get_position], [stop] and [is_moving] calls, whichever of
    them raise. *)
Theorem requests_keep_range E rs w :
  in_range (self w) ->
  in_range (self (after_requests E rs w)) /\
  same_configuration (self w) (self (after_requests E rs w)).
Proof.
  revert w. induction rs as [|r rs IH]; intros w Hr.
  - split; [done | apply same_configuration_refl].
  - unfold after_requests in *. cbn [fold_left].
    destruct (after_request_step E w r Hr) as [Hr1 Hc1].
    destruct (IH _ Hr1) as [Hr2 Hc2].
    split; [done | by eapply same_configuration_trans].
Qed.

Lemma requests_keep_range_witness :
  in_range (self (after_requests cancelled_in_sleep
                    [Move 500; Ask Stop; Move (-20); Ask GetPosition; Move 70] sample_world)) /\
  same_configuration (self sample_world)
    (self (after_requests cancelled_in_sleep
             [Move 500; Ask Stop; Move (-20); Ask GetPosition; Move 70] sample_world)).
Proof.
  apply (requests_keep_range cancelled_in_sleep
           [Move 500; Ask Stop; Move (-20); Ask GetPosition; Move 70] sample_world).
  unfold in_range. simpl. lia.
Defined.

(** ** Repeating a move *)

(** X3: after a [move] that returned, the same [move] again is the
    no-op, in any environment: it returns at once and no call reaches the
    motor. *)
Theorem move_again_noop angle E E' w w' :
  move angle E w = (Ok tt, w') ->
  move angle E' w' = (Ok tt, w') /\
  new_calls w' (snd (move angle E' w')) = [].
Proof.
  intros Hmove.
  apply move_ok_summary in Hmove as (Hs & _).
  assert (Hnoop : move angle E' w' = (Ok tt, w')).
  { rewrite move_unfold. apply move_outcome_noop.
    rewrite Hs. unfold clamp_target. world_simpl. reflexivity. }
  split; [done|]. rewrite Hnoop. apply new_calls_same.
Qed.

Lemma move_again_noop_witness :
  move 500 cancelled_in_sleep (snd (move 500 quiet sample_world)) =
    (Ok tt, snd (move 500 quiet sample_world)) /\
  new_calls (snd (move 500 quiet sample_world))
    (snd (move 500 cancelled_in_sleep (snd (move 500 quiet sample_world)))) = [].
Proof.
  apply (move_again_noop 500 quiet cancelled_in_sleep sample_world).
  vm_compute. reflexivity.
Defined.

(** ** Sequences of moves and their traces *)

Lemma clamp_target_min s : clamp_target s (min_position_degrees s) = min_position_degrees s.
Proof. unfold clamp_target. lia. Qed.

Lemma clamp_target_set_position p s angle :
  clamp_target (set_position p s) angle = clamp_target s angle.
Proof. reflexivity. Qed.

(** A completed [move], with its calls spelled out by [leg_calls]. *)
Lemma move_ok_leg angle E w w' :
  move angle E w = (Ok tt, w') ->
  self w' = set_position (clamp_target (self w) angle) (self w) /\
  calls w' = calls w ++ leg_calls (self w) angle /\
  logged w' = logged w /\
  tasks w' = tasks w.
Proof.
  intros Hmove. unfold leg_calls.
  destruct (move_ok_inv _ _ _ _ Hmove)
    as [[Heq ->] | (Hne & p & m & Hp & Hm & _ & _ & _ & ->)].
  - rewrite Heq, Z.sub_diag, set_position_same, app_nil_r. done.
  - destruct (Z.eqb_spec (clamp_target (self w) angle - position (self w)) 0); [lia|].
    rewrite Hp, Hm. done.
Qed.

Lemma new_calls_app w w' l : calls w' = calls w ++ l -> new_calls w w' = l.
Proof. intros Hc. unfold new_calls. by rewrite Hc, drop_app_length. Qed.

Lemma complete_runs_leg s angle l :
  complete_runs (leg_calls s angle ++ l) = complete_runs l.
Proof.
  unfold leg_calls.
  destruct (_ =? 0); [done|].
  destruct (plan_move _ _); [|done]. destruct (motor s); [|done].
  cbn. by rewrite N.eqb_refl.
Qed.

Lemma count_leg s angle :
  length (List.filter is_set_power (leg_calls s angle)) =
  length (List.filter is_motor_stop (leg_calls s angle)).
Proof.
  unfold leg_calls.
  destruct (_ =? 0); [done|].
  destruct (plan_move _ _); [|done]. by destruct (motor s).
Qed.



(** X5: a [move] returns normally exactly when it is the no-op, or the
    duration can be computed, the motor is set and none of its three
    awaited calls raises. *)
Theorem move_completes_iff angle E w :
  fst (move angle E w) = Ok tt <->
  clamp_target (self w) angle = position (self w) \/
  exists p m,
    plan_move (self w) (clamp_target (self w) angle - position (self w)) = Ok p /\
    motor (self w) = Some m /\
    fault E (length (calls w)) = None /\
    fault E (S (length (calls w))) = None /\
    fault E (S (S (length (calls w)))) = None.
Proof.
  split.
  - destruct (move angle E w) as [r w'] eqn:Hmove. cbn [fst]. intros ->.
    destruct (move_ok_inv _ _ _ _ Hmove)
      as [[Heq _] | (_ & p & m & Hp & Hm & H0 & H1 & H2 & _)]; [by left|].
    right. by exists p, m.
  - rewrite move_unfold.
    destruct (Z.eq_dec (clamp_target (self w) angle) (position (self w))) as [Heq|Hne].
    { intros _. by rewrite move_outcome_noop. }
    intros [Heq | (p & m & Hp & Hm & H0 & H1 & H2)]; [done|].
    by rewrite (move_outcome_runs angle E w p m).
Qed.

(** ** Calibration in general *)

(** A completed calibration, leg by leg. *)
Lemma initialize_ok_summary E w w' :
  initialize E w = (Ok tt, w') ->
  self w' = set_position (clamp_target (self w) (position (self w))) (self w) /\
  calls w' =
    calls w ++
    leg_calls (self w) (min_position_degrees (self w)) ++
    leg_calls (set_position (min_position_degrees (self w)) (self w))
      (max_position_degrees (self w)) ++
    leg_calls (set_position (clamp_target (self w) (max_position_degrees (self w))) (self w))
      (position (self w)) /\
  logged w' = logged w ++ calibration_log (self w) /\
  tasks w' = tasks w.
Proof.
  intros Hrun.
  apply initialize_ok_inv in Hrun as (wa & wb & wc & Ha & Hb & Hc & ->).
  apply move_ok_leg in Ha as (Hsa & Hca & Hla & Hta).
  apply move_ok_leg in Hb as (Hsb & Hcb & Hlb & Htb).
  apply move_ok_leg in Hc as (Hsc & Hcc & Hlc & Htc).
  world_simpl.
  rewrite clamp_target_min in Hsa.
  rewrite Hsa in Hsb, Hcb, Hlb. world_simpl. rewrite clamp_target_set_position in Hsb.
  rewrite Hsb in Hsc, Hcc. world_simpl. rewrite clamp_target_set_position in Hsc.
  split; [done|]. split; [|split].
  - by rewrite Hcc, Hcb, Hca, <- !app_assoc.
  - rewrite Hlc, Hlb, Hla. unfold calibration_log. by rewrite <- !app_assoc.
  - by rewrite Htc, Htb, Hta.
Qed.

(** X6: with a non-empty range, a calibration that runs to its end leaves
    the estimate at the value it had when calibration started, clamped into
    the range; its calls are those of a move to the minimum, a move from
    there to the maximum and a move from there to that value, a leg whose
    target is where the actuator already is making no call; it logs its
    five messages and changes nothing else. *)
Theorem initialize_completed E w w' :
  min_position_degrees (self w) <= max_position_degrees (self w) ->
  initialize E w = (Ok tt, w') ->
  position (self w') =
    clamp (position (self w)) (min_position_degrees (self w)) (max_position_degrees (self w)) /\
  same_configuration (self w) (self w') /\
  new_calls w w' =
    leg_calls (self w) (min_position_degrees (self w)) ++
    leg_calls (set_position (min_position_degrees (self w)) (self w))
      (max_position_degrees (self w)) ++
    leg_calls (set_position (max_position_degrees (self w)) (self w)) (position (self w)) /\
  logged w' = logged w ++ calibration_log (self w) /\
  tasks w' = tasks w.
Proof.
  intros Hle Hrun.
  apply initialize_ok_summary in Hrun as (Hs & Hc & Hl & Ht).
  assert (Hmax : clamp_target (self w) (max_position_degrees (self w)) =
                 max_position_degrees (self w)) by (unfold clamp_target; lia).
  rewrite Hmax in Hc.
  split; [|split; [|split; [|done]]].
  - rewrite Hs. world_simpl. by apply clamp_target_clamp.
  - rewrite Hs. apply same_configuration_set.
  - by apply new_calls_app.
Qed.

(** The sample actuator believed to be at 200 degrees, outside its range. *)
Lemma initialize_completed_witness :
  position (self (snd (initialize quiet (with_self (set_position 200 sample_servo) sample_world))))
    = clamp 200 0 180 /\
  same_configuration (set_position 200 sample_servo)
    (self (snd (initialize quiet (with_self (set_position 200 sample_servo) sample_world)))) /\
  new_calls (with_self (set_position 200 sample_servo) sample_world)
    (snd (initialize quiet (with_self (set_position 200 sample_servo) sample_world))) =
    leg_calls (set_position 200 sample_servo) 0 ++
    leg_calls (set_position 0 (set_position 200 sample_servo)) 180 ++
    leg_calls (set_position 180 (set_position 200 sample_servo)) 200 /\
  logged (snd (initialize quiet (with_self (set_position 200 sample_servo) sample_world))) =
    [] ++ calibration_log (set_position 200 sample_servo) /\
  tasks (snd (initialize quiet (with_self (set_position 200 sample_servo) sample_world))) = [].
Proof.
  apply (initialize_completed quiet (with_self (set_position 200 sample_servo) sample_world)).
  - simpl. lia.
  - vm_compute. reflexivity.
Defined.

(** What a run of [move] does to the object, by the way it ends. *)
Lemma move_inv angle E w r w' :
  move angle E w = (r, w') ->
  logged w' = logged w /\ tasks w' = tasks w /\
  match r with
  | Ok _ => self w' = set_position (clamp_target (self w) angle) (self w)
  | Err _ => self w' = self w
  end.
Proof.
  intros Hmove.
  destruct (move_cases angle E w) as (Hcases & Hl & Ht & _).
  rewrite Hmove in *. cbn [fst snd] in *.
  split; [done|]. split; [done|].
  destruct r as [[]|e], Hcases as [[Hr Hs] | (e' & Hr & Hs)]; done.
Qed.

(** X7: however a calibration ends, it changes no field other than the
    estimate and schedules nothing; the estimate it leaves is the one it
    started from or the target of its last completed leg: the minimum, the
    clamped maximum, or the clamped starting value.  A calibration that
    raises stops at the leg that raised and does not log its completion. *)
Theorem initialize_any_outcome E w :
  same_configuration (self w) (self (snd (initialize E w))) /\
  tasks (snd (initialize E w)) = tasks w /\
  (position (self (snd (initialize E w))) = position (self w) \/
   position (self (snd (initialize E w))) = min_position_degrees (self w) \/
   position (self (snd (initialize E w))) =
     clamp_target (self w) (max_position_degrees (self w)) \/
   position (self (snd (initialize E w))) = clamp_target (self w) (position (self w))) /\
  (forall e, fst (initialize E w) = Err e ->
             last (logged (snd (initialize E w))) <> Some CalibrationCompleted) /\
  (fst (initialize E w) = Ok tt ->
   last (logged (snd (initialize E w))) = Some CalibrationCompleted).
Proof.
  unfold initialize, mbind, M_bind, log, get_self. world_simpl.
  destruct (move (min_position_degrees (self w)) E _) as [ra wa] eqn:Ha.
  apply move_inv in Ha as (Hla & Hta & Hsa). world_simpl.
  destruct ra as [[]|ea].
  2:{ cbn [fst snd]. rewrite Hsa, Hla, Hta, last_snoc.
      repeat split; try done; first [apply same_configuration_refl | by left]. }
  rewrite clamp_target_min in Hsa.
  destruct (move (max_position_degrees (self wa)) E _) as [rb wb] eqn:Hb.
  apply move_inv in Hb as (Hlb & Htb & Hsb). world_simpl.
  destruct rb as [[]|eb].
  2:{ cbn [fst snd]. rewrite Hsb, Hsa, Hlb, Htb, Hta, last_snoc.
      repeat split; try done. right; by left. }
  rewrite Hsa in Hsb. world_simpl. rewrite clamp_target_set_position in Hsb.
  destruct (move (position (self w)) E _) as [rc wc] eqn:Hc.
  apply move_inv in Hc as (Hlc & Htc & Hsc). world_simpl.
  destruct rc as [[]|ec]; cbn [fst snd]; world_simpl.
  - rewrite Hsc, Hsb, Htc, Htb, Hta, last_snoc. world_simpl.
    rewrite clamp_target_set_position.
    repeat split; try done. by do 3 right.
  - rewrite Hsc, Hsb, Hlc, Htc, Htb, Hta, last_snoc.
    repeat split; try done. right; right; by left.
Qed.

(** ** Configuration intake *)

(** X8: [validate_config] accepts exactly the attribute maps that hold
    [motor], [length_inches] and [mm_per_second], whatever their values,
    and then names the motor as the only required dependency, with no
    optional one; a missing [motor] is reported before a missing
    [length_inches], and that before a missing [mm_per_second]. *)
Theorem validate_config_accepts_iff attributes :
  (forall deps,
     validate_config attributes = Ok deps <->
     exists name, attr_motor attributes = Some name /\
                  attr_length_inches attributes <> None /\
                  attr_mm_per_second attributes <> None /\
                  deps = ([name], [])) /\
  (attr_motor attributes = None ->
   validate_config attributes = Err (Exception "motor is required")) /\
  (attr_motor attributes <> None -> attr_length_inches attributes = None ->
   validate_config attributes = Err (Exception "length_inches is required")) /\
  (attr_motor attributes <> None -> attr_length_inches attributes <> None ->
   attr_mm_per_second attributes = None ->
   validate_config attributes = Err (Exception "mm_per_second is required")).
Proof.
  unfold validate_config.
  destruct (attr_motor attributes) as [name|],
           (attr_length_inches attributes) as [len|],
           (attr_mm_per_second attributes) as [speed|].
  all: repeat split; try done.
  all: try (intros (name' & Hname & ? & ? & _); done).
  - intros [= <-]. by exists name.
  - intros (name' & [= <-] & _ & _ & ->). done.
Qed.

(** X9: when the dependencies hold no motor under the configured name
    (for a missing [motor] attribute the name looked up is the text
    [None]), [reconfigure] raises [KeyError] before assigning anything: the
    object keeps its previous configuration and estimate, and no
    calibration is scheduled. *)
Theorem reconfigure_unresolved_motor attributes dependencies E w :
  dependencies !! get_resource_name (str (attr_motor attributes)) = None ->
  reconfigure attributes dependencies E w =
    (Err (KeyError (get_resource_name (str (attr_motor attributes)))), w) /\
  (attr_motor attributes = None ->
   get_resource_name (str (attr_motor attributes)) = "rdk:component:motor/None").
Proof.
  intros Hdep. unfold reconfigure. rewrite Hdep. split; [done|]. by intros ->.
Qed.

Lemma reconfigure_unresolved_motor_witness :
  reconfigure no_speed_attributes ∅ quiet sample_world =
    (Err (KeyError (get_resource_name (str (attr_motor no_speed_attributes)))), sample_world) /\
  (attr_motor no_speed_attributes = None ->
   get_resource_name (str (attr_motor no_speed_attributes)) = "rdk:component:motor/None").
Proof.
  apply (reconfigure_unresolved_motor no_speed_attributes ∅ quiet sample_world).
  reflexivity.
Defined.

Lemma reconfigure_ok_inv attributes dependencies E w w1 :
  reconfigure attributes dependencies E w = (Ok tt, w1) ->
  exists m,
    dependencies !! get_resource_name (str (attr_motor attributes)) = Some m /\
    w1 = with_task Initialize (with_self (configured attributes m (self w)) w).
Proof.
  unfold reconfigure.
  destruct (dependencies !! _) as [m|]; [|done].
  intros [= <-]. by exists m.
Qed.

(** X10: reconfiguring a second time, a key of the range
    ([max_position_degrees], [min_position_degrees], [total_degrees]) that
    the second configuration omits keeps the value the first one left,
    while an omitted [start_position] puts the estimate back at the class
    default and an omitted [length_inches] or [mm_per_second] becomes 0,
    whatever the first configuration said; each of the two calls schedules
    a calibration of its own. *)
Theorem reconfigure_twice first second dependencies E w w2 :
  (reconfigure first dependencies;; reconfigure second dependencies) E w = (Ok tt, w2) ->
  tasks w2 = tasks w ++ [Initialize; Initialize] /\
  max_position_degrees (self w2) =
    default (default (max_position_degrees (self w)) (attr_max_position_degrees first))
      (attr_max_position_degrees second) /\
  min_position_degrees (self w2) =
    default (default (min_position_degrees (self w)) (attr_min_position_degrees first))
      (attr_min_position_degrees second) /\
  total_degrees (self w2) =
    default (default (total_degrees (self w)) (attr_total_degrees first))
      (attr_total_degrees second) /\
  position (self w2) = default (start_position (self w)) (attr_start_position second) /\
  start_position (self w2) = start_position (self w) /\
  length_inches (self w2) = Some (default 0%float (attr_length_inches second)) /\
  mm_per_second (self w2) = Some (default 0%float (attr_mm_per_second second)) /\
  calls w2 = calls w /\
  logged w2 = logged w.
Proof.
  unfold mbind at 1. unfold M_bind at 1.
  destruct (reconfigure first dependencies E w) as [[[]|e] w1] eqn:H1; [|done].
  intros H2.
  apply reconfigure_ok_inv in H1 as (m1 & _ & ->).
  apply reconfigure_ok_inv in H2 as (m2 & _ & ->).
  world_simpl. rewrite <- app_assoc. done.
Qed.

Lemma reconfigure_twice_witness :
  tasks (snd ((reconfigure narrow_attributes sample_dependencies;;
               reconfigure zero_span_attributes sample_dependencies) quiet fresh_world)) =
    tasks fresh_world ++ [Initialize; Initialize] /\
  max_position_degrees
    (self (snd ((reconfigure narrow_attributes sample_dependencies;;
                 reconfigure zero_span_attributes sample_dependencies) quiet fresh_world))) =
    default (default 180 (Some 120)) None /\
  min_position_degrees
    (self (snd ((reconfigure narrow_attributes sample_dependencies;;
                 reconfigure zero_span_attributes sample_dependencies) quiet fresh_world))) =
    default (default 0 (Some 30)) None /\
  total_degrees
    (self (snd ((reconfigure narrow_attributes sample_dependencies;;
                 reconfigure zero_span_attributes sample_dependencies) quiet fresh_world))) =
    default (default 180 (Some 90)) (Some 0) /\
  position
    (self (snd ((reconfigure narrow_attributes sample_dependencies;;
                 reconfigure zero_span_attributes sample_dependencies) quiet fresh_world))) =
    default 90 None /\
  start_position
    (self (snd ((reconfigure narrow_attributes sample_dependencies;;
                 reconfigure zero_span_attributes sample_dependencies) quiet fresh_world))) = 90 /\
  length_inches
    (self (snd ((reconfigure narrow_attributes sample_dependencies;;
                 reconfigure zero_span_attributes sample_dependencies) quiet fresh_world))) =
    Some (default 0%float (Some 18%float)) /\
  mm_per_second
    (self (snd ((reconfigure narrow_attributes sample_dependencies;;
                 reconfigure zero_span_attributes sample_dependencies) quiet fresh_world))) =
    Some (default 0%float (Some 25.4%float)) /\
  calls (snd ((reconfigure narrow_attributes sample_dependencies;;
               reconfigure zero_span_attributes sample_dependencies) quiet fresh_world)) = [] /\
  logged (snd ((reconfigure narrow_attributes sample_dependencies;;
                reconfigure zero_span_attributes sample_dependencies) quiet fresh_world)) = [].
Proof.
  apply (reconfigure_twice narrow_attributes zero_span_attributes sample_dependencies
           quiet fresh_world).
  vm_compute. reflexivity.
Defined.

(** X11: a newly constructed controller takes every optional key that
    the attributes omit from the class defaults, whatever object was there
    before: range 0 to 180, [total_degrees] 180 and the estimate at 90; it
    makes no call to the motor and schedules one calibration. *)
Theorem new_starts_from_class_defaults attributes dependencies E w w1 :
  new attributes dependencies E w = (Ok tt, w1) ->
  max_position_degrees (self w1) = default 180 (attr_max_position_degrees attributes) /\
  min_position_degrees (self w1) = default 0 (attr_min_position_degrees attributes) /\
  total_degrees (self w1) = default 180 (attr_total_degrees attributes) /\
  position (self w1) = default 90 (attr_start_position attributes) /\
  start_position (self w1) = 90 /\
  (exists m, dependencies !! get_resource_name (str (attr_motor attributes)) = Some m /\
             motor (self w1) = Some m) /\
  calls w1 = calls w /\
  tasks w1 = tasks w ++ [Initialize].
Proof.
  unfold new, mbind, M_bind, put_self. intros Hnew.
  apply reconfigure_ok_inv in Hnew as (m & Hdep & ->).
  world_simpl. repeat split; try done. by exists m.
Qed.

Lemma new_starts_from_class_defaults_witness :
  max_position_degrees
    (self (snd (new no_speed_attributes sample_dependencies quiet sample_world))) =
    default 180 None /\
  min_position_degrees
    (self (snd (new no_speed_attributes sample_dependencies quiet sample_world))) =
    default 0 None /\
  total_degrees
    (self (snd (new no_speed_attributes sample_dependencies quiet sample_world))) =
    default 180 None /\
  position (self (snd (new no_speed_attributes sample_dependencies quiet sample_world))) =
    default 90 None /\
  start_position
    (self (snd (new no_speed_attributes sample_dependencies quiet sample_world))) = 90 /\
  (exists m,
     sample_dependencies !! get_resource_name (str (attr_motor no_speed_attributes)) = Some m /\
     motor (self (snd (new no_speed_attributes sample_dependencies quiet sample_world))) =
       Some m) /\
  calls (snd (new no_speed_attributes sample_dependencies quiet sample_world)) = [] /\
  tasks (snd (new no_speed_attributes sample_dependencies quiet sample_world)) =
    [] ++ [Initialize].
Proof.
  apply (new_starts_from_class_defaults no_speed_attributes sample_dependencies
           quiet sample_world).
  vm_compute. reflexivity.
Defined.

Lemma configure_ok_inv attributes dependencies E w w1 :
  configure attributes dependencies E w = (Ok tt, w1) ->
  (exists deps, validate_config attributes = Ok deps) /\
  reconfigure attributes dependencies E w = (Ok tt, w1).
Proof.
  unfold configure, mbind, M_bind, lift.
  destruct (validate_config attributes) as [deps|e]; [|done].
  intros Hr. split; [by exists deps | done].
Qed.

(** X12: from configuration to the first reading: when a configuration
    has been accepted, its range is not empty and the calibration it
    scheduled has run to its end, [get_position] returns the configured
    [start_position] (the class default when the key is omitted) clamped
    into the configured range. *)
Theorem position_after_calibration attributes dependencies E w w1 E' w2 E'' :
  configure attributes dependencies E w = (Ok tt, w1) ->
  min_position_degrees (self w1) <= max_position_degrees (self w1) ->
  run_task Initialize E' w1 = (Ok tt, w2) ->
  tasks w1 = tasks w ++ [Initialize] /\
  get_position E'' w2 =
    (Ok (clamp (default (start_position (self w)) (attr_start_position attributes))
           (min_position_degrees (self w1)) (max_position_degrees (self w1))),
     w2).
Proof.
  intros Hcfg Hle Hrun.
  apply configure_ok_inv in Hcfg as (_ & Hcfg).
  apply reconfigure_ok_inv in Hcfg as (m & _ & ->).
  unfold run_task in Hrun. apply initialize_ok_summary in Hrun as (Hs & _).
  world_simpl. split; [done|].
  unfold get_position, mbind, M_bind, get_self, mret, M_ret.
  rewrite Hs. world_simpl.
  by rewrite (clamp_target_clamp (configured attributes m (self w)) _ Hle).
Qed.

Lemma position_after_calibration_witness :
  tasks (snd (configure narrow_attributes sample_dependencies quiet fresh_world)) =
    tasks fresh_world ++ [Initialize] /\
  get_position quiet
    (snd (run_task Initialize quiet
            (snd (configure narrow_attributes sample_dependencies quiet fresh_world)))) =
    (Ok (clamp (default 90 (attr_start_position narrow_attributes))
           (min_position_degrees
              (self (snd (configure narrow_attributes sample_dependencies quiet fresh_world))))
           (max_position_degrees
              (self (snd (configure narrow_attributes sample_dependencies quiet fresh_world))))),
     snd (run_task Initialize quiet
            (snd (configure narrow_attributes sample_dependencies quiet fresh_world)))).
Proof.
  apply (position_after_calibration narrow_attributes sample_dependencies quiet fresh_world
           (snd (configure narrow_attributes sample_dependencies quiet fresh_world)) quiet
           (snd (run_task Initialize quiet
                   (snd (configure narrow_attributes sample_dependencies quiet fresh_world))))
           quiet).
  - vm_compute. reflexivity.
  - vm_compute. discriminate.
  - vm_compute. reflexivity.
Defined.
